(** * Option hooks of the Block Tales manual world

    A shallow embedding of [hooks/Options.py]: the option classes the module
    declares, the registration hook [before_options_defined], the visibility
    hook [after_options_defined] and the two group hooks, together with the
    properties the specification states about them.

    Python objects live in a heap: dictionaries are reached through
    locations and classes through class references, so that in-place
    mutation and sharing are visible in the model. *)

From Stdlib Require Import ZArith String.
From stdpp Require Import base numbers strings functions list.

Local Open Scope string_scope.
Local Open Scope Z_scope.
Local Open Scope list_scope.

(** ** Ordered dictionaries

    A Python [dict] keeps its keys in insertion order.  Assigning to a key
    that is present replaces the value where the key stands; assigning to a
    new key appends it. *)

Definition Dict (V : Type) : Type := list (string * V).

Definition dict_empty {V} : Dict V := [].

Fixpoint dict_get {V} (k : string) (d : Dict V) : option V :=
  match d with
  | [] => None
  | (k', v) :: d' => if String.eqb k' k then Some v else dict_get k d'
  end.

Fixpoint dict_set {V} (k : string) (v : V) (d : Dict V) : Dict V :=
  match d with
  | [] => [(k, v)]
  | (k', v') :: d' =>
      if String.eqb k' k then (k', v) :: d' else (k', v') :: dict_set k v d'
  end.

Definition dict_keys {V} (d : Dict V) : list string := map fst d.

Definition dict_contains {V} (k : string) (d : Dict V) : bool :=
  match dict_get k d with Some _ => true | None => false end.

Definition dict_contains_all {V} (ks : list string) (d : Dict V) : bool :=
  forallb (fun k => dict_contains k d) ks.

(** A run of assignments, one after the other. *)
Definition dict_set_all {V} (kvs : list (string * V)) (d : Dict V) : Dict V :=
  fold_left (fun acc kv => dict_set (fst kv) (snd kv) acc) kvs d.

(** The value the last assignment to [k] in a run wrote, if any. *)
Fixpoint last_write {V} (k : string) (kvs : list (string * V)) : option V :=
  match kvs with
  | [] => None
  | (k', v) :: rest =>
      match last_write k rest with
      | Some w => Some w
      | None => if String.eqb k' k then Some v else None
      end
  end.

(** ** Values and class objects *)

(** Modelled from the spec: the host's [Visibility] enumeration is not part
    of this module; the spec names the two flags [visible] and [hidden], and
    the member the source assigns, [Visibility.none], is the hidden one. *)
Inductive Visibility : Type := visible | hidden.

Definition Visibility_none : Visibility := hidden.

Inductive Value : Type :=
  | VInt (n : Z)
  | VBool (b : bool)
  | VStr (s : string)
  | VVisibility (v : Visibility).

(** The four option base classes imported from the host's [Options]. *)
Inductive HostBase : Type := Toggle | DefaultOnToggle | Choice | Range.

(** The thirteen classes this module declares. *)
Inductive OptionClass : Type :=
  | TotalCharactersToWinWith | SoloMode | ISpyLogic | Shopsanity
  | BUXShopHints | Levelsanity | Fishsanity | Chatsanity | CAP
  | Cutscenesanity | ThePit | DisablePostGoalContent | SoulType.

(** A class reference is the identity of a class object: an imported base,
    a class of this module, or any other class the host has built (the
    generated options such as [co_op] or [chapter1]). *)
Inductive ClassRef : Type :=
  | Host (b : HostBase)
  | Own (c : OptionClass)
  | Other (id : N).

#[global] Instance HostBase_eq_dec : EqDecision HostBase.
Proof. solve_decision. Defined.

#[global] Instance OptionClass_eq_dec : EqDecision OptionClass.
Proof. solve_decision. Defined.

#[global] Instance ClassRef_eq_dec : EqDecision ClassRef.
Proof. solve_decision. Defined.

(** A class object: the rest of its method resolution order (its bases,
    nearest first), its own namespace as far as the class body and later
    assignments write it, and its [__annotations__].  The entries Python
    and the host's metaclass add on their own, such as [__module__], are
    left out. *)
Record ClassObj : Type := mkClass {
  cls_bases : list ClassRef;
  cls_dict : Dict Value;
  cls_annotations : Dict Value
}.

Abbreviation Store := (ClassRef -> ClassObj).

(** Attribute lookup on a class walks the class and then its bases. *)
Fixpoint find_attr (st : Store) (name : string) (mro : list ClassRef)
  : option Value :=
  match mro with
  | [] => None
  | c :: rest =>
      match dict_get name (cls_dict (st c)) with
      | Some v => Some v
      | None => find_attr st name rest
      end
  end.

Definition getattr (st : Store) (c : ClassRef) (name : string) : option Value :=
  find_attr st name (c :: cls_bases (st c)).

(** Attribute assignment on a class writes its own namespace only. *)
Definition set_own (name : string) (v : Value) (o : ClassObj) : ClassObj :=
  mkClass (cls_bases o) (dict_set name v (cls_dict o)) (cls_annotations o).

(** ** Class statements

    The three forms of statement found in the class bodies of the module: a
    docstring, an assignment [name = value], and a bare annotation
    [name: annotation], which binds no attribute and is only recorded in
    [__annotations__]. *)
Inductive ClassStmt : Type :=
  | Docstring (s : string)
  | Assign (name : string) (v : Value)
  | Annotate (name : string) (annotation : Value).

Record ClassDecl : Type := mkDecl {
  decl_base : HostBase;
  decl_body : list ClassStmt
}.

Definition exec_stmt (ns : Dict Value * Dict Value) (s : ClassStmt)
  : Dict Value * Dict Value :=
  match s with
  | Docstring d => (dict_set "__doc__" (VStr d) (fst ns), snd ns)
  | Assign name v => (dict_set name v (fst ns), snd ns)
  | Annotate name a => (fst ns, dict_set name a (snd ns))
  end.

Definition exec_body (body : list ClassStmt) : Dict Value * Dict Value :=
  fold_left exec_stmt body (dict_empty, dict_empty).

Definition create_class (st : Store) (d : ClassDecl) : ClassObj :=
  let ns := exec_body (decl_body d) in
  mkClass (Host (decl_base d) :: cls_bases (st (Host (decl_base d))))
          (fst ns) (snd ns).

(** ** The classes of the module *)

Definition nl : string := String (Ascii.ascii_of_nat 10) EmptyString.

Definition doc (lines : list string) : string := String.concat nl lines.

Definition TotalCharactersToWinWith_doc : string := doc
  ["Instead of having to beat the game with all characters, you can limit locations to a subset of character victory locations."].

Definition SoloMode_doc : string := doc
  [EmptyString;
   "    Enable Solo Mode, a mode where:";
   "    1. Additional Party Member Items are removed from the item pool.";
   "    2. Cards that are only beneficial in a party are removed from the item pool.";
   "    "].

Definition ISpyLogic_doc : string := doc
  [EmptyString;
   "    Toggle if certain BUX Checks require the I Spy Card to obtain.";
   "    Recommended for those that have no idea where some of the more hidden BUX are.";
   "    "].

Definition Shopsanity_doc : string := doc
  [EmptyString;
   "    Add all of the items you can purchase in Shops as Checks.";
   "    You do NOT have to buy everything in the Shops if you can't afford it.";
   "    Just get to a Shop and you can send its Checks.";
   "    Clarifying that now so people don't start grinding TIX for Shop Checks.";
   "    (178 Checks)";
   "    "].

Definition BUXShopHints_doc : string := doc
  [EmptyString;
   "    Toggle if the BUX Shop Checks will be automatically hinted at the start of the Multiworld.";
   "    Disable if you want the items that are held in your BUX Shop to be a mystery...";
   "    "].

Definition Levelsanity_doc : string := doc
  [EmptyString;
   "    Add Level Ups as Checks.";
   "    The Regions used for these are rough estimates on where you may level up.";
   "    They may be slightly altered as I continue to update the Manual.";
   "    (12 Checks)";
   "    "].

Definition Fishsanity_doc : string := doc
  [EmptyString;
   "    Add catching fish as Checks.";
   "    This also adds Worm as a Progression Consumable.";
   "    You must have the Worm Item to fish.";
   "    The fishing spot is located in the Meadows, in a room you normally go through.";
   "    If you've been there before, you can easily warp to that room at anytime.";
   "    (10 Checks)";
   "    "].

Definition Chatsanity_doc : string := doc
  [EmptyString;
   "    Add talking to NPCs as Checks.";
   "    WARNING: If you enable this, prepare for way too much Filler.";
   "    (705 Checks)";
   "    "].

Definition CAP_doc : string := doc
  [EmptyString;
   "    As per Paragraph 4 of the CAP (Chatsanity Acknowledgement Pact), you must agree to the following to enable Chatsanity:";
   "    By signing this definitely real contract, you acknowledge the consequences of having the Option 'Chatsanity' turned on, especially when enabled with a non-early Goal.";
   "    Furthermore, you are aware of how many Checks and, by extension, how much Filler and/or Traps will be added to the pool for you as a result of this.";
   "    Please sign the contract by choosing I Agree below to confirm that this is truly what you want.";
   "    "].

Definition Cutscenesanity_doc : string := doc
  [EmptyString;
   "    Add in-game cutscenes as Checks.";
   "    Cutscenes are usually the scenes where one or more of the following occur:";
   "    - The screen has black bars on the sides";
   "    - Unique NPC and/or Player animations";
   "    - Forced interaction with characters that can't be avoided (like Kyoko in Chapter 2)";
   "    ...or other things that are often unique to cutscenes.";
   "    This is a bit iffy to determine what is/isn't a Cutscene, so input is appreciated so I can refine it.";
   "    (79 Checks)";
   "    "].

Definition ThePit_doc : string := doc
  [EmptyString;
   "    Adds each floor of the Pit as Checks.";
   "    Only enable if you don't mind potential in logic suffering.";
   "    (40 Checks)";
   "    "].

Definition DisablePostGoalContent_doc : string := doc
  [EmptyString;
   "    Remove Items and Checks that come after your selected Goal.";
   "    Recommended for Syncs especially, but could be used in Asyncs, too.";
   "    "].

Definition SoulType_doc : string := doc
  [EmptyString;
   "    How does your soul look on the inside?";
   "    This determines if you're going to be a nice person or a heartless person during your run.";
   "    For example, Pure expects you to save Accountant Jim with the Dynamite, but Dark expects you to leave him there.";
   "    (you monster)";
   "    "].

Definition class_decl (c : OptionClass) : ClassDecl :=
  match c with
  | TotalCharactersToWinWith =>
      mkDecl Range
        [Docstring TotalCharactersToWinWith_doc;
         Assign "display_name"
           (VStr "Number of characters to beat the game with before victory");
         Assign "range_start" (VInt 10);
         Assign "range_end" (VInt 50);
         Assign "default" (VInt 50)]
  | SoloMode =>
      mkDecl Toggle
        [Docstring SoloMode_doc; Annotate "display_name" (VStr "Solo Mode")]
  | ISpyLogic =>
      mkDecl DefaultOnToggle
        [Docstring ISpyLogic_doc; Annotate "display_name" (VStr "I Spy Logic")]
  | Shopsanity =>
      mkDecl Toggle
        [Docstring Shopsanity_doc; Annotate "display_name" (VStr "Shopsanity")]
  | BUXShopHints =>
      mkDecl DefaultOnToggle
        [Docstring BUXShopHints_doc;
         Annotate "display_name" (VStr "BUX Shop Hints")]
  | Levelsanity =>
      mkDecl DefaultOnToggle
        [Docstring Levelsanity_doc; Annotate "display_name" (VStr "Levelsanity")]
  | Fishsanity =>
      mkDecl DefaultOnToggle
        [Docstring Fishsanity_doc; Annotate "display_name" (VStr "Fishsanity")]
  | Chatsanity =>
      mkDecl Toggle
        [Docstring Chatsanity_doc; Annotate "display_name" (VStr "Chatsanity")]
  | CAP =>
      mkDecl Choice
        [Docstring CAP_doc;
         Assign "option_i_agree" (VInt 0);
         Assign "option_i_disagree" (VInt 1);
         Annotate "display_name" (VStr "CAP")]
  | Cutscenesanity =>
      mkDecl DefaultOnToggle
        [Docstring Cutscenesanity_doc;
         Annotate "display_name" (VStr "Cutscenesanity")]
  | ThePit =>
      mkDecl Toggle
        [Docstring ThePit_doc; Annotate "display_name" (VStr "The Pit")]
  | DisablePostGoalContent =>
      mkDecl DefaultOnToggle
        [Docstring DisablePostGoalContent_doc;
         Annotate "display_name" (VStr "Disable Post-Goal Content")]
  | SoulType =>
      mkDecl Choice
        [Docstring SoulType_doc;
         Assign "option_pure" (VInt 0);
         Assign "option_dark" (VInt 1);
         Annotate "display_name" (VStr "Soul Type")]
  end.

(** Loading the module on top of a store that already holds the host's
    classes creates the thirteen class objects. *)
Definition load_module (st : Store) : Store :=
  fun r =>
    match r with
    | Own c => create_class st (class_decl c)
    | _ => st r
    end.

(** Modelled from the spec: the host's base classes [Toggle],
    [DefaultOnToggle], [Choice] and [Range] are imported, not declared here.
    The spec gives a Toggle the default false, a DefaultOnToggle (a Toggle)
    the default true, and has an unspecified Choice default resolve to code
    0; a Range takes its bounds and default from the declaring class. *)
Definition host_class (b : HostBase) : ClassObj :=
  match b with
  | Toggle => mkClass [] [("default", VBool false)] dict_empty
  | DefaultOnToggle => mkClass [Host Toggle] [("default", VBool true)] dict_empty
  | Choice => mkClass [] [("default", VInt 0)] dict_empty
  | Range => mkClass [] dict_empty dict_empty
  end.

Definition host_store : Store :=
  fun r =>
    match r with
    | Host b => host_class b
    | _ => mkClass [] dict_empty dict_empty
    end.

Definition module_store : Store := load_module host_store.

(** ** The heap and the monad of Python computations *)

Definition Loc : Type := N.

(** Every location denotes a dictionary and every class reference a class
    object: Python has no dangling references. *)
Record Heap : Type := mkHeap {
  dicts : Loc -> Dict ClassRef;
  classes : Store
}.

Inductive Exn : Type := KeyError (key : string).

Inductive Outcome (A : Type) : Type :=
  | Returns (a : A)
  | Raises (e : Exn).

Arguments Returns {A} a.
Arguments Raises {A} e.

(** A computation transforms the heap and either returns or raises; what it
    wrote before raising stays written. *)
Definition Py (A : Type) : Type := Heap -> Heap * Outcome A.

#[global] Instance Py_ret : MRet Py := fun A a h => (h, Returns a).

#[global] Instance Py_bind : MBind Py :=
  fun A B f m h =>
    match m h with
    | (h', Returns a) => f a h'
    | (h', Raises e) => (h', Raises e)
    end.

(** [d[k] = v] *)
Definition dict_setitem (d : Loc) (k : string) (v : ClassRef) : Py unit :=
  fun h =>
    (mkHeap (<[d := dict_set k v (dicts h d)]> (dicts h)) (classes h),
     Returns tt).

(** [d[k]] *)
Definition dict_getitem (d : Loc) (k : string) : Py ClassRef :=
  fun h =>
    match dict_get k (dicts h d) with
    | Some c => (h, Returns c)
    | None => (h, Raises (KeyError k))
    end.

(** [c.name = v] *)
Definition setattr (c : ClassRef) (name : string) (v : Value) : Py unit :=
  fun h =>
    (mkHeap (dicts h) (<[c := set_own name v (classes h c)]> (classes h)),
     Returns tt).

(** ** The hooks *)

Definition before_options_defined (options : Loc) : Py Loc :=
  dict_setitem options "solo_mode" (Own SoloMode);;
  dict_setitem options "i_spy_logic" (Own ISpyLogic);;
  dict_setitem options "shopsanity" (Own Shopsanity);;
  dict_setitem options "bux_shop_hints" (Own BUXShopHints);;
  dict_setitem options "levelsanity" (Own Levelsanity);;
  dict_setitem options "fishsanity" (Own Fishsanity);;
  dict_setitem options "chatsanity" (Own Chatsanity);;
  dict_setitem options "cap" (Own CAP);;
  dict_setitem options "cutscenesanity" (Own Cutscenesanity);;
  dict_setitem options "the_pit" (Own ThePit);;
  dict_setitem options "disable_postgoal_content" (Own DisablePostGoalContent);;
  dict_setitem options "soul_type" (Own SoulType);;
  mret options.

(** Modelled from the spec: the host's final option set.  The hook reads
    only its [type_hints] mapping, from option key to option class. *)
Record PerGameCommonOptions : Type := mkOptions { type_hints : Loc }.

(** [options.type_hints[key].visibility = Visibility.none] *)
Definition hide (options : PerGameCommonOptions) (key : string) : Py unit :=
  c ← dict_getitem (type_hints options) key;
  setattr c "visibility" (VVisibility Visibility_none).

Definition after_options_defined (options : PerGameCommonOptions) : Py unit :=
  hide options "co_op";;
  hide options "bux_shop";;
  hide options "shopsanity_currency";;
  hide options "pure_soul";;
  hide options "dark_soul";;
  hide options "pre_prologue";;
  hide options "prologue";;
  hide options "chapter1";;
  hide options "chapter2";;
  hide options "chapter3";;
  hide options "chapter4";;
  mret tt.

Definition before_option_groups_created {A : Type} (groups : A) : Py A :=
  mret groups.

Definition after_option_groups_created {A : Type} (groups : A) : Py A :=
  mret groups.

(** ** The catalog of the specification *)

(** What the catalog records of a definition: kind, default, bounds of a
    Range, enumeration of a Choice. *)
Record Row : Type := mkRow {
  row_kind : HostBase;
  row_default : Value;
  row_bounds : option (Z * Z);
  row_choices : list (string * Z)
}.

(** The table of section 4.1, row by row, in the spec's words: a toggle is
    off (false) or on (true), a choice defaults to a code. *)
Definition catalog : Dict Row :=
  [("total_characters_to_win_with", mkRow Range (VInt 50) (Some (10, 50)) []);
   ("solo_mode", mkRow Toggle (VBool false) None []);
   ("i_spy_logic", mkRow DefaultOnToggle (VBool true) None []);
   ("shopsanity", mkRow Toggle (VBool false) None []);
   ("bux_shop_hints", mkRow DefaultOnToggle (VBool true) None []);
   ("levelsanity", mkRow DefaultOnToggle (VBool true) None []);
   ("fishsanity", mkRow DefaultOnToggle (VBool true) None []);
   ("chatsanity", mkRow Toggle (VBool false) None []);
   ("cap", mkRow Choice (VInt 0) None [("i_agree", 0); ("i_disagree", 1)]);
   ("cutscenesanity", mkRow DefaultOnToggle (VBool true) None []);
   ("the_pit", mkRow Toggle (VBool false) None []);
   ("disable_postgoal_content", mkRow DefaultOnToggle (VBool true) None []);
   ("soul_type", mkRow Choice (VInt 0) None [("pure", 0); ("dark", 1)])].

(** The enumeration of a class: its own attributes [option_<label> = code]. *)
Fixpoint choices_of (ns : Dict Value) : list (string * Z) :=
  match ns with
  | [] => []
  | (name, VInt code) :: rest =>
      if String.prefix "option_" name
      then (String.substring 7 (String.length name - 7) name, code)
             :: choices_of rest
      else choices_of rest
  | _ :: rest => choices_of rest
  end.

Definition bounds_of (st : Store) (c : ClassRef) : option (Z * Z) :=
  match getattr st c "range_start", getattr st c "range_end" with
  | Some (VInt lo), Some (VInt hi) => Some (lo, hi)
  | _, _ => None
  end.

(** Modelled from the spec: how a class object is read as a catalog row.
    The kind is the host base the class derives from directly, the default
    is the resolved [default] attribute, the bounds are [range_start] and
    [range_end], the choices are the class's own [option_] attributes. *)
Definition describe (st : Store) (c : ClassRef) : option Row :=
  match cls_bases (st c), getattr st c "default" with
  | Host b :: _, Some d =>
      Some (mkRow b d (bounds_of st c) (choices_of (cls_dict (st c))))
  | _, _ => None
  end.

(** The keys the registration hook writes, with the class it binds each to,
    in the order of the source. *)
Definition registrations : list (string * OptionClass) :=
  [("solo_mode", SoloMode);
   ("i_spy_logic", ISpyLogic);
   ("shopsanity", Shopsanity);
   ("bux_shop_hints", BUXShopHints);
   ("levelsanity", Levelsanity);
   ("fishsanity", Fishsanity);
   ("chatsanity", Chatsanity);
   ("cap", CAP);
   ("cutscenesanity", Cutscenesanity);
   ("the_pit", ThePit);
   ("disable_postgoal_content", DisablePostGoalContent);
   ("soul_type", SoulType)].

(** The keys the visibility hook hides, in the order of the source. *)
Definition hidden_keys : list string :=
  ["co_op"; "bux_shop"; "shopsanity_currency"; "pure_soul"; "dark_soul";
   "pre_prologue"; "prologue"; "chapter1"; "chapter2"; "chapter3"; "chapter4"].

(** ** The hooks as runs over their key lists *)

(** A run of dictionary assignments followed by [cont]. *)
Fixpoint setitems_then {A : Type} (d : Loc) (kvs : list (string * ClassRef))
    (cont : Py A) : Py A :=
  match kvs with
  | [] => cont
  | (k, v) :: rest => dict_setitem d k v;; setitems_then d rest cont
  end.

(** A run of hides followed by [cont]. *)
Fixpoint hides_then {A : Type} (options : PerGameCommonOptions)
    (ks : list string) (cont : Py A) : Py A :=
  match ks with
  | [] => cont
  | k :: rest => hide options k;; hides_then options rest cont
  end.

Definition registered_classes : list (string * ClassRef) :=
  map (fun kc => (fst kc, Own (snd kc))) registrations.

(** The class objects a list of keys denotes in a [type_hints] mapping. *)
Definition hidden_classes (th : Dict ClassRef) (ks : list string)
  : list ClassRef :=
  omap (fun k => dict_get k th) ks.

Definition hidden_obj (o : ClassObj) : ClassObj :=
  set_own "visibility" (VVisibility Visibility_none) o.

(** What the host reads when it asks for an attribute of the option bound
    to a key: [options.type_hints[key].name]. *)
Definition attribute_of (h : Heap) (options : PerGameCommonOptions)
    (key name : string) : option Value :=
  match dict_get key (dicts h (type_hints options)) with
  | Some c => getattr (classes h) c name
  | None => None
  end.

Definition visibility_of (h : Heap) (options : PerGameCommonOptions)
    (key : string) : option Value :=
  attribute_of h options key "visibility".

(** Whether the declared default of a Range lies within its bounds. *)
Definition default_in_bounds (st : Store) (c : ClassRef) : bool :=
  match bounds_of st c, getattr st c "default" with
  | Some (lo, hi), Some (VInt d) => (lo <=? d) && (d <=? hi)
  | _, _ => false
  end.

(** ** The two statements of the specification that the code does not meet,
    as the specification words them *)

(** Section 8, first property: after registration, each of the thirteen
    catalog keys is bound to a definition that reads as its row. *)
Definition catalog_lookup_as_stated (h : Heap) (options : Loc) : Prop :=
  exists h',
    before_options_defined options h = (h', Returns options) /\
    forall key row,
      dict_get key catalog = Some row ->
      exists c,
        dict_get key (dicts h' options) = Some c /\
        describe module_store c = Some row.

(** Section 8, third property: on a registry with all eleven target keys,
    exactly those keys become hidden, every other key keeps its visibility
    and every key keeps its other attributes. *)
Definition hide_frame_as_stated (h : Heap) (options : PerGameCommonOptions)
  : Prop :=
  dict_contains_all hidden_keys (dicts h (type_hints options)) = true ->
  exists h',
    after_options_defined options h = (h', Returns tt) /\
    (forall key, key ∈ hidden_keys ->
       visibility_of h' options key = Some (VVisibility hidden)) /\
    (forall key, key ∉ hidden_keys ->
       visibility_of h' options key = visibility_of h options key) /\
    (forall key name, name <> "visibility" ->
       attribute_of h' options key name = attribute_of h options key name).

(** ** Sample heaps *)

(** The heap when the host calls the registration hook: the module is
    loaded and the registry, at location 0, is the empty dictionary. *)
Definition fresh_heap : Heap := mkHeap (fun _ => dict_empty) module_store.

(** A registry that already binds two of the keys the hook writes and one
    it does not. *)
Definition busy_heap : Heap :=
  mkHeap
    (fun l =>
       if N.eqb l 0
       then [("cap", Other 7); ("start_inventory", Other 8);
             ("solo_mode", Own Shopsanity)]
       else dict_empty)
    module_store.

(** A generated option class as the host builds it: a default-on toggle
    that is visible. *)
Definition generated_class : ClassObj :=
  mkClass [Host DefaultOnToggle; Host Toggle]
    [("default", VBool true); ("visibility", VVisibility visible)]
    dict_empty.

Definition generated_store : Store :=
  fun r =>
    match r with
    | Other _ => generated_class
    | _ => module_store r
    end.

Definition final_options : PerGameCommonOptions := mkOptions 1%N.

(** The scenario of section 8: the eleven target keys and one unrelated
    key, each bound to a class of its own. *)
Definition scenario_heap : Heap :=
  mkHeap
    (fun l =>
       if N.eqb l 1
       then [("co_op", Other 0); ("bux_shop", Other 1);
             ("shopsanity_currency", Other 2); ("pure_soul", Other 3);
             ("dark_soul", Other 4); ("pre_prologue", Other 5);
             ("prologue", Other 6); ("chapter1", Other 7);
             ("chapter2", Other 8); ("chapter3", Other 9);
             ("chapter4", Other 10); ("unrelated_key", Other 11)]
       else dict_empty)
    generated_store.

(** The same registry, except that [unrelated_key] is annotated with the
    class that [co_op] is annotated with. *)
Definition shared_heap : Heap :=
  mkHeap
    (fun l =>
       if N.eqb l 1
       then [("co_op", Other 0); ("bux_shop", Other 1);
             ("shopsanity_currency", Other 2); ("pure_soul", Other 3);
             ("dark_soul", Other 4); ("pre_prologue", Other 5);
             ("prologue", Other 6); ("chapter1", Other 7);
             ("chapter2", Other 8); ("chapter3", Other 9);
             ("chapter4", Other 10); ("unrelated_key", Other 0)]
       else dict_empty)
    generated_store.

(** A final option set in which [shopsanity_currency] was never defined. *)
Definition partial_heap : Heap :=
  mkHeap
    (fun l =>
       if N.eqb l 1
       then [("co_op", Other 0); ("bux_shop", Other 1);
             ("pure_soul", Other 3); ("chapter1", Other 7)]
       else dict_empty)
    generated_store.

(** ** The visibility hook read as a function of the mapping *)

(** The first of the keys [ks], in order, that the mapping does not bind. *)
Definition first_missing_key (th : Dict ClassRef) (ks : list string)
  : option string :=
  List.find (fun k => negb (dict_contains k th)) ks.

(** The keys of [ks] that stand before the first one the mapping does not
    bind: the keys a run of hides gets through. *)
Fixpoint processed_keys (th : Dict ClassRef) (ks : list string) : list string :=
  match ks with
  | [] => []
  | k :: rest =>
      if dict_contains k th then k :: processed_keys th rest else []
  end.

(** The heap the visibility hook leaves behind on [partial_heap]: [co_op]
    and [bux_shop] are hidden already. *)
Definition rerun_heap : Heap :=
  fst (after_options_defined final_options partial_heap).

(** * Facts about dictionaries *)

Section dict_facts.
Context {V : Type}.
Implicit Types (d : Dict V) (k : string) (v : V).

Lemma dict_get_set d k k' v :
  dict_get k' (dict_set k v d)
  = if String.eqb k k' then Some v else dict_get k' d.
Proof.
  induction d as [|[k0 v0] d IH]; simpl; [reflexivity|].
  destruct (String.eqb k0 k) eqn:E; simpl.
  - apply String.eqb_eq in E. subst k0.
    destruct (String.eqb k k'); reflexivity.
  - rewrite IH.
    destruct (String.eqb k0 k') eqn:E1; [|reflexivity].
    destruct (String.eqb k k') eqn:E2; [|reflexivity].
    apply String.eqb_eq in E1, E2. subst.
    rewrite String.eqb_refl in E. discriminate.
Qed.

Lemma dict_get_set_eq d k v : dict_get k (dict_set k v d) = Some v.
Proof. rewrite dict_get_set, String.eqb_refl. reflexivity. Qed.

Lemma dict_get_set_ne d k k' v :
  k <> k' -> dict_get k' (dict_set k v d) = dict_get k' d.
Proof.
  intros Hne. rewrite dict_get_set.
  apply String.eqb_neq in Hne. rewrite Hne. reflexivity.
Qed.

(** Writing the value a key already has changes nothing, not even the
    order of the keys. *)
Lemma dict_set_id d k v : dict_get k d = Some v -> dict_set k v d = d.
Proof.
  induction d as [|[k0 v0] d IH]; simpl; [discriminate|].
  destruct (String.eqb k0 k); intros H.
  - congruence.
  - rewrite (IH H). reflexivity.
Qed.

Lemma dict_set_set d k v v' :
  dict_set k v (dict_set k v' d) = dict_set k v d.
Proof.
  induction d as [|[k0 v0] d IH]; simpl.
  - rewrite String.eqb_refl. reflexivity.
  - destruct (String.eqb k0 k) eqn:E; simpl; rewrite E; [reflexivity|].
    rewrite IH. reflexivity.
Qed.

(** An assignment keeps the keys that are there where they are and
    appends a new key at the end. *)
Lemma dict_keys_set d k v :
  dict_keys (dict_set k v d)
  = if dict_contains k d then dict_keys d else (dict_keys d ++ [k])%list.
Proof.
  unfold dict_keys, dict_contains.
  induction d as [|[k0 v0] d IH]; simpl; [reflexivity|].
  destruct (String.eqb k0 k); simpl; [reflexivity|].
  rewrite IH. destruct (dict_get k d); reflexivity.
Qed.

Lemma dict_contains_set d k k' v :
  dict_contains k' (dict_set k v d)
  = (String.eqb k k' || dict_contains k' d)%bool.
Proof.
  unfold dict_contains. rewrite dict_get_set.
  destruct (String.eqb k k'); reflexivity.
Qed.

Lemma dict_get_set_all kvs d k :
  dict_get k (dict_set_all kvs d)
  = match last_write k kvs with
    | Some v => Some v
    | None => dict_get k d
    end.
Proof.
  revert d. induction kvs as [|[k0 v0] kvs IH]; intros d; simpl;
    [reflexivity|].
  unfold dict_set_all in *. simpl. rewrite IH.
  destruct (last_write k kvs); [reflexivity|].
  rewrite dict_get_set. destruct (String.eqb k0 k); reflexivity.
Qed.

Lemma dict_set_all_id kvs d :
  Forall (fun kv => dict_get (fst kv) d = Some (snd kv)) kvs ->
  dict_set_all kvs d = d.
Proof.
  induction 1 as [|[k v] kvs H _ IH]; [reflexivity|].
  unfold dict_set_all in *. simpl in *.
  rewrite (dict_set_id _ _ _ H). exact IH.
Qed.

(** When no key is assigned twice, the last write to a key is its only
    write, which reading the run as a dictionary finds. *)
Lemma last_write_NoDup k (kvs : list (string * V)) :
  NoDup (map fst kvs) -> last_write k kvs = dict_get k kvs.
Proof.
  induction kvs as [|[k0 v0] kvs IH]; simpl; [reflexivity|].
  intros Hnd. apply NoDup_cons in Hnd as [Hnotin Hnd].
  rewrite (IH Hnd).
  destruct (String.eqb k0 k) eqn:E.
  - apply String.eqb_eq in E. subst k0.
    destruct (dict_get k kvs) eqn:G; [|reflexivity].
    exfalso. apply Hnotin. clear -G.
    induction kvs as [|[k1 v1] kvs IH]; simpl in *; [discriminate|].
    destruct (String.eqb k1 k) eqn:E.
    + apply String.eqb_eq in E. subst. left.
    + right. auto.
  - destruct (dict_get k kvs); reflexivity.
Qed.

Lemma dict_set_all_keys_NoDup kvs d :
  NoDup (dict_keys d) -> NoDup (dict_keys (dict_set_all kvs d)).
Proof.
  revert d. induction kvs as [|[k v] kvs IH]; intros d Hd; [exact Hd|].
  unfold dict_set_all in *. simpl. apply IH.
  rewrite dict_keys_set. unfold dict_contains.
  destruct (dict_get k d) eqn:G; [exact Hd|].
  apply NoDup_app. split; [exact Hd|]. split; [|apply NoDup_singleton].
  intros x Hx Hk. apply list_elem_of_singleton in Hk. subst x.
  clear -G Hx. unfold dict_keys in Hx.
  induction d as [|[k1 v1] d IH]; simpl in *; [inversion Hx|].
  destruct (String.eqb k1 k) eqn:E; [discriminate|].
  apply String.eqb_neq in E.
  apply elem_of_cons in Hx as [->|Hx]; [congruence|auto].
Qed.

End dict_facts.

(** * Attribute lookup *)

Lemma find_attr_ext (st1 st2 : Store) (name : string) (mro : list ClassRef) :
  Forall (fun c => dict_get name (cls_dict (st1 c))
                   = dict_get name (cls_dict (st2 c))) mro ->
  find_attr st1 name mro = find_attr st2 name mro.
Proof.
  induction 1 as [|c mro Hc _ IH]; simpl; [reflexivity|].
  rewrite Hc, IH. reflexivity.
Qed.

Lemma getattr_own (st : Store) (c : ClassRef) (name : string) (v : Value) :
  dict_get name (cls_dict (st c)) = Some v -> getattr st c name = Some v.
Proof. intros H. unfold getattr. simpl. rewrite H. reflexivity. Qed.

Lemma hidden_obj_idem (o : ClassObj) : hidden_obj (hidden_obj o) = hidden_obj o.
Proof.
  unfold hidden_obj, set_own. simpl. rewrite dict_set_set. reflexivity.
Qed.

Lemma hidden_obj_visibility (o : ClassObj) :
  dict_get "visibility" (cls_dict (hidden_obj o)) = Some (VVisibility hidden).
Proof. unfold hidden_obj, set_own. simpl. apply dict_get_set_eq. Qed.

Lemma hidden_obj_other (o : ClassObj) (name : string) :
  name <> "visibility" ->
  dict_get name (cls_dict (hidden_obj o)) = dict_get name (cls_dict o).
Proof.
  intros Hne. unfold hidden_obj, set_own. simpl.
  apply dict_get_set_ne. congruence.
Qed.

(** * The registration hook, step by step *)

Lemma before_options_defined_unfold (options : Loc) :
  before_options_defined options
  = setitems_then options registered_classes (mret options).
Proof. reflexivity. Qed.

Lemma setitems_then_run {A : Type} (d : Loc) (kvs : list (string * ClassRef))
    (a : A) (h : Heap) :
  exists h',
    setitems_then d kvs (mret a) h = (h', Returns a) /\
    classes h' = classes h /\
    dicts h' d = dict_set_all kvs (dicts h d) /\
    (forall l, l <> d -> dicts h' l = dicts h l).
Proof.
  revert h. induction kvs as [|[k v] kvs IH]; intros h.
  - exists h. repeat split; reflexivity.
  - destruct (IH (mkHeap (<[d := dict_set k v (dicts h d)]> (dicts h))
                         (classes h))) as (h' & Hrun & Hcls & Hd & Hfr).
    exists h'. simpl in *. repeat split.
    + exact Hrun.
    + exact Hcls.
    + rewrite Hd, fn_lookup_insert. reflexivity.
    + intros l Hl. rewrite (Hfr l Hl). apply fn_lookup_insert_ne. congruence.
Qed.

Lemma registrations_NoDup : NoDup (map fst registered_classes).
Proof. apply (bool_decide_unpack _). vm_compute. exact I. Qed.

(** The lookup of any key after the run of registrations. *)
Lemma registered_lookup (d : Dict ClassRef) (k : string) :
  dict_get k (dict_set_all registered_classes d)
  = match dict_get k registrations with
    | Some c => Some (Own c)
    | None => dict_get k d
    end.
Proof.
  rewrite dict_get_set_all, (last_write_NoDup _ _ registrations_NoDup).
  unfold registered_classes.
  induction registrations as [|[k0 c0] regs IH]; simpl; [reflexivity|].
  destruct (String.eqb k0 k); [reflexivity|exact IH].
Qed.

Lemma registered_all (d : Dict ClassRef) :
  Forall (fun kc =>
            dict_get (fst kc) (dict_set_all registered_classes d)
            = Some (Own (snd kc))) registrations.
Proof.
  apply Forall_forall. intros [k c] Hin. cbn [fst snd].
  rewrite registered_lookup. unfold registrations in Hin.
  repeat (apply elem_of_cons in Hin as [Hin|Hin];
          [injection Hin as -> ->; reflexivity|]).
  inversion Hin.
Qed.

Lemma registered_idem (d : Dict ClassRef) :
  dict_set_all registered_classes (dict_set_all registered_classes d)
  = dict_set_all registered_classes d.
Proof.
  apply dict_set_all_id. unfold registered_classes at 2.
  apply Forall_fmap. eapply Forall_impl; [apply registered_all|].
  intros [k c] H. exact H.
Qed.

(** * The visibility hook, step by step *)

Lemma after_options_defined_unfold (options : PerGameCommonOptions) :
  after_options_defined options = hides_then options hidden_keys (mret tt).
Proof. reflexivity. Qed.

Lemma bind_run {A B : Type} (m : Py A) (f : A -> Py B) (h : Heap) :
  (m ≫= f) h
  = match m h with
    | (h', Returns a) => f a h'
    | (h', Raises e) => (h', Raises e)
    end.
Proof. reflexivity. Qed.

Lemma hide_present (options : PerGameCommonOptions) (k : string) (h : Heap)
    (c : ClassRef) :
  dict_get k (dicts h (type_hints options)) = Some c ->
  hide options k h
  = (mkHeap (dicts h) (<[c := hidden_obj (classes h c)]> (classes h)),
     Returns tt).
Proof.
  intros Hget. unfold hide. rewrite bind_run. unfold dict_getitem.
  rewrite Hget. reflexivity.
Qed.

Lemma hide_missing (options : PerGameCommonOptions) (k : string) (h : Heap) :
  dict_get k (dicts h (type_hints options)) = None ->
  hide options k h = (h, Raises (KeyError k)).
Proof.
  intros Hget. unfold hide. rewrite bind_run. unfold dict_getitem.
  rewrite Hget. reflexivity.
Qed.

Lemma hides_prefix {A : Type} (options : PerGameCommonOptions)
    (pre rest : list string) (cont : Py A) (h : Heap) :
  dict_contains_all pre (dicts h (type_hints options)) = true ->
  exists h',
    hides_then options (pre ++ rest) cont h = hides_then options rest cont h' /\
    dicts h' = dicts h /\
    forall c,
      classes h' c
      = if decide (c ∈ hidden_classes (dicts h (type_hints options)) pre)
        then hidden_obj (classes h c)
        else classes h c.
Proof.
  revert h. induction pre as [|k pre IH]; intros h Hall.
  - exists h. split; [reflexivity|]. split; [reflexivity|].
    intros c. case_decide as Hin; [|reflexivity].
    unfold hidden_classes in Hin. simpl in Hin. inversion Hin.
  - simpl in Hall. apply andb_prop in Hall as [Hk Hpre].
    unfold dict_contains in Hk.
    destruct (dict_get k (dicts h (type_hints options))) as [c0|] eqn:Hget;
      [clear Hk|discriminate].
    set (h1 := mkHeap (dicts h)
                 (<[c0 := hidden_obj (classes h c0)]> (classes h))).
    destruct (IH h1 Hpre) as (h' & Hrun & Hd & Hcls).
    exists h'. split; [|split].
    + rewrite <- Hrun. cbn [app hides_then].
      rewrite bind_run, (hide_present _ _ _ _ Hget). reflexivity.
    + exact Hd.
    + intros c. rewrite Hcls. simpl. unfold hidden_classes. simpl.
      rewrite Hget. simpl. fold (hidden_classes (dicts h (type_hints options)) pre).
      destruct (decide (c = c0)) as [->|Hne].
      * rewrite fn_lookup_insert.
        destruct (decide (c0 ∈ _)), (decide (c0 ∈ c0 :: _)) as [|Hn];
          try reflexivity; try apply hidden_obj_idem.
        all: exfalso; apply Hn; left.
      * rewrite fn_lookup_insert_ne by congruence.
        destruct (decide (c ∈ _)) as [Hin|Hnin],
                 (decide (c ∈ c0 :: _)) as [Hin'|Hnin']; try reflexivity.
        -- exfalso. apply Hnin'. right. exact Hin.
        -- exfalso. apply elem_of_cons in Hin' as [?|?]; [congruence|auto].
Qed.

Lemma first_missing (ks : list string) (th : Dict ClassRef) :
  dict_contains_all ks th = false ->
  exists pre k post,
    ks = pre ++ k :: post /\
    dict_contains_all pre th = true /\
    dict_get k th = None.
Proof.
  induction ks as [|k ks IH]; simpl; [discriminate|].
  destruct (dict_contains k th) eqn:Hk; simpl.
  - intros H. destruct (IH H) as (pre & k' & post & -> & Hpre & Hmiss).
    exists (k :: pre), k', post. simpl. rewrite Hk, Hpre. auto.
  - intros _. exists [], k, ks. repeat split.
    unfold dict_contains in Hk. destruct (dict_get k th); [discriminate|reflexivity].
Qed.

Lemma hidden_classes_elem (th : Dict ClassRef) (ks : list string)
    (k : string) (c : ClassRef) :
  k ∈ ks -> dict_get k th = Some c -> c ∈ hidden_classes th ks.
Proof. intros Hk Hget. apply list_elem_of_omap. eauto. Qed.

Lemma contains_all_elem (th : Dict ClassRef) (ks : list string) (k : string) :
  dict_contains_all ks th = true -> k ∈ ks -> exists c, dict_get k th = Some c.
Proof.
  unfold dict_contains_all. rewrite forallb_forall. intros Hall Hk.
  apply list_elem_of_In in Hk. specialize (Hall k Hk).
  unfold dict_contains in Hall.
  destruct (dict_get k th) as [c|]; [eauto|discriminate].
Qed.

(** * The registration hook *)

Lemma before_options_defined_run (h : Heap) (options : Loc) :
  exists h',
    before_options_defined options h = (h', Returns options) /\
    classes h' = classes h /\
    dicts h' options = dict_set_all registered_classes (dicts h options) /\
    (forall l, l <> options -> dicts h' l = dicts h l).
Proof. rewrite before_options_defined_unfold. apply setitems_then_run. Qed.

(** A registry without duplicate keys, as every Python dictionary is, is
    still one after the hook. *)
Lemma before_options_defined_keys_unique (h : Heap) (options : Loc) :
  NoDup (dict_keys (dicts h options)) ->
  exists h',
    before_options_defined options h = (h', Returns options) /\
    NoDup (dict_keys (dicts h' options)).
Proof.
  intros Hnd.
  destruct (before_options_defined_run h options) as (h' & Hrun & _ & Hd & _).
  exists h'. split; [exact Hrun|].
  rewrite Hd. apply dict_set_all_keys_NoDup, Hnd.
Qed.

(** On a registry that already binds [cap] and [solo_mode], the hook
    rebinds both where they stand and appends the other ten keys. *)
Example before_options_defined_busy :
  let h' := fst (before_options_defined 0%N busy_heap) in
  snd (before_options_defined 0%N busy_heap) = Returns 0%N /\
  dict_get "cap" (dicts h' 0%N) = Some (Own CAP) /\
  dict_get "solo_mode" (dicts h' 0%N) = Some (Own SoloMode) /\
  dict_get "start_inventory" (dicts h' 0%N) = Some (Other 8) /\
  dict_keys (dicts h' 0%N)
  = ["cap"; "start_inventory"; "solo_mode"; "i_spy_logic"; "shopsanity";
     "bux_shop_hints"; "levelsanity"; "fishsanity"; "chatsanity";
     "cutscenesanity"; "the_pit"; "disable_postgoal_content"; "soul_type"].
Proof. vm_compute. repeat split. Qed.

(** C1, as the specification states it, fails on the registry the host
    passes: the hook never writes [total_characters_to_win_with], so after
    registration into the empty registry that key has no binding. *)
Lemma catalog_lookup_as_stated_fails : ~ catalog_lookup_as_stated fresh_heap 0%N.
Proof.
  intros (h' & Hrun & Hall).
  destruct (Hall "total_characters_to_win_with" _ eq_refl) as (c & Hget & _).
  destruct (before_options_defined_run fresh_heap 0%N) as (h1 & Hrun1 & _ & Hd & _).
  rewrite Hrun1 in Hrun. injection Hrun as <-.
  rewrite Hd, registered_lookup in Hget. discriminate Hget.
Qed.

(** C1, amended: for every heap and registry, the hook returns and each of
    the twelve keys it writes is then bound to the class of this module
    that reads as the key's row of the catalog of section 4.1 (kind,
    default, bounds, choices).  The thirteenth catalog key,
    [total_characters_to_win_with], is not written: its binding is what the
    registry held before; the class [TotalCharactersToWinWith] is declared
    and reads as its row all the same.  The catalog has no other key. *)
Theorem registered_keys_match_catalog (h : Heap) (options : Loc) :
  exists h',
    before_options_defined options h = (h', Returns options) /\
    Forall (fun kc =>
              dict_get (fst kc) (dicts h' options) = Some (Own (snd kc)) /\
              exists row,
                dict_get (fst kc) catalog = Some row /\
                describe module_store (Own (snd kc)) = Some row)
           registrations /\
    dict_get "total_characters_to_win_with" (dicts h' options)
    = dict_get "total_characters_to_win_with" (dicts h options) /\
    describe module_store (Own TotalCharactersToWinWith)
    = dict_get "total_characters_to_win_with" catalog /\
    dict_keys catalog
    = "total_characters_to_win_with" :: dict_keys registrations.
Proof.
  destruct (before_options_defined_run h options) as (h' & Hrun & _ & Hd & _).
  exists h'. split; [exact Hrun|]. split; [|split; [|split]].
  - rewrite Hd. apply Forall_and. split; [apply registered_all|].
    unfold registrations.
    repeat (apply Forall_cons; split;
            [eexists; split; vm_compute; reflexivity|]).
    apply Forall_nil. exact I.
  - rewrite Hd, registered_lookup. reflexivity.
  - vm_compute. reflexivity.
  - reflexivity.
Qed.

(** C4: the registration hook has no failure path.  On every heap and for
    every registry, whatever it already binds, the hook returns (it never
    raises), leaves every class object alone, and afterwards each key it
    writes is bound to the hook's class for it: a prior binding of such a
    key is replaced, and every other key keeps its binding. *)
Theorem before_options_defined_total (h : Heap) (options : Loc) :
  exists h',
    before_options_defined options h = (h', Returns options) /\
    classes h' = classes h /\
    Forall (fun kc =>
              dict_get (fst kc) (dicts h' options) = Some (Own (snd kc)))
           registrations /\
    forall k,
      dict_get k (dicts h' options)
      = match dict_get k registrations with
        | Some c => Some (Own c)
        | None => dict_get k (dicts h options)
        end.
Proof.
  destruct (before_options_defined_run h options) as (h' & Hrun & Hc & Hd & _).
  exists h'. rewrite Hd. repeat split.
  - exact Hrun.
  - exact Hc.
  - apply registered_all.
  - intros k. apply registered_lookup.
Qed.

(** C5: registering twice is registering once.  Calling the hook on the
    registry and then again on the registry it returned gives the same
    result, the same registry contents (bindings and key order), the same
    other dictionaries and the same class objects as calling it once. *)
Theorem before_options_defined_idempotent (h : Heap) (options : Loc) :
  exists h1 h2,
    before_options_defined options h = (h1, Returns options) /\
    (opts ← before_options_defined options; before_options_defined opts) h
    = (h2, Returns options) /\
    (forall l, dicts h2 l = dicts h1 l) /\
    classes h2 = classes h1.
Proof.
  destruct (before_options_defined_run h options)
    as (h1 & Hrun1 & Hc1 & Hd1 & Hfr1).
  destruct (before_options_defined_run h1 options)
    as (h2 & Hrun2 & Hc2 & Hd2 & Hfr2).
  exists h1, h2. split; [exact Hrun1|]. split; [|split].
  - rewrite bind_run, Hrun1. exact Hrun2.
  - intros l. destruct (decide (l = options)) as [->|Hne].
    + rewrite Hd2, Hd1. apply registered_idem.
    + apply Hfr2, Hne.
  - exact Hc2.
Qed.

(** C9: the hook returns the location of the very dictionary it was given,
    having written into it in place; no other dictionary and no class
    object changes; and a key outside the twelve the hook writes is bound
    after the call to what it was bound to before (or is still unbound). *)
Theorem before_options_defined_frame (h : Heap) (options : Loc) (k : string) :
  dict_get k registrations = None ->
  exists h',
    before_options_defined options h = (h', Returns options) /\
    classes h' = classes h /\
    (forall l, l <> options -> dicts h' l = dicts h l) /\
    dict_get k (dicts h' options) = dict_get k (dicts h options).
Proof.
  intros Hk.
  destruct (before_options_defined_run h options) as (h' & Hrun & Hc & Hd & Hfr).
  exists h'. repeat split; try assumption.
  rewrite Hd, registered_lookup, Hk. reflexivity.
Qed.

Lemma before_options_defined_frame_witness :
  dict_get "start_inventory" registrations = None /\
  exists h',
    before_options_defined 0%N busy_heap = (h', Returns 0%N) /\
    classes h' = classes busy_heap /\
    (forall l, l <> 0%N -> dicts h' l = dicts busy_heap l) /\
    dict_get "start_inventory" (dicts h' 0%N)
    = dict_get "start_inventory" (dicts busy_heap 0%N).
Proof.
  split; [reflexivity|].
  apply (before_options_defined_frame busy_heap 0%N "start_inventory").
  reflexivity.
Defined.

(** * The group hooks *)

(** C6: both group hooks are the identity: each returns the structure it
    was given and leaves the heap as it found it. *)
Theorem group_hooks_identity {A B : Type} (groups : A) (groups' : B) (h : Heap) :
  before_option_groups_created groups h = (h, Returns groups) /\
  after_option_groups_created groups' h = (h, Returns groups').
Proof. split; reflexivity. Qed.

(** * The declarations *)

(** C7: [TotalCharactersToWinWith] derives from [Range]; whatever the
    host's classes are, its bounds resolve to 10 and 50 and its default to
    50, which lies within them.  The class body binds these values and a
    display name and nothing else: no method that would enforce the
    bounds. *)
Theorem total_characters_range_declared (st : Store) :
  decl_base (class_decl TotalCharactersToWinWith) = Range /\
  bounds_of (load_module st) (Own TotalCharactersToWinWith) = Some (10, 50) /\
  getattr (load_module st) (Own TotalCharactersToWinWith) "default"
  = Some (VInt 50) /\
  default_in_bounds (load_module st) (Own TotalCharactersToWinWith) = true /\
  dict_keys (cls_dict (load_module st (Own TotalCharactersToWinWith)))
  = ["__doc__"; "display_name"; "range_start"; "range_end"; "default"] /\
  dict_keys (cls_annotations (load_module st (Own TotalCharactersToWinWith)))
  = [].
Proof. repeat split; reflexivity. Qed.

(** C8: [CAP] derives from [Choice]; its enumeration is exactly
    [i_agree = 0], [i_disagree = 1]; it binds no default of its own, so its
    default is the one the host's [Choice] provides, which is code 0, the
    code of [i_agree]. *)
Theorem cap_choice_declared (st : Store) :
  decl_base (class_decl CAP) = Choice /\
  choices_of (cls_dict (load_module st (Own CAP)))
  = [("i_agree", 0); ("i_disagree", 1)] /\
  dict_get "default" (cls_dict (load_module st (Own CAP))) = None /\
  getattr (load_module st) (Own CAP) "default"
  = getattr (load_module st) (Host Choice) "default" /\
  getattr module_store (Own CAP) "default" = Some (VInt 0) /\
  describe module_store (Own CAP)
  = Some (mkRow Choice (VInt 0) None [("i_agree", 0); ("i_disagree", 1)]).
Proof. repeat split; reflexivity. Qed.

(** C10: of the thirteen classes only [TotalCharactersToWinWith] binds
    [display_name].  In each of the other twelve the name occurs as a bare
    annotation: the class namespace has no such attribute, the annotation
    is recorded, and reading [display_name] on the class gives whatever
    reading it on its host base gives. *)
Theorem display_name_only_assigned_once (st : Store) (c : OptionClass) :
  match c with
  | TotalCharactersToWinWith =>
      dict_get "display_name" (cls_dict (load_module st (Own c)))
      = Some (VStr "Number of characters to beat the game with before victory")
      /\ dict_get "display_name" (cls_annotations (load_module st (Own c)))
         = None
  | _ =>
      dict_get "display_name" (cls_dict (load_module st (Own c))) = None /\
      dict_contains "display_name" (cls_annotations (load_module st (Own c)))
      = true /\
      getattr (load_module st) (Own c) "display_name"
      = getattr (load_module st) (Host (decl_base (class_decl c)))
          "display_name"
  end.
Proof. destruct c; repeat split; reflexivity. Qed.

(** * The visibility hook *)

(** What the hook has done once it has gone through a prefix [pre] of its
    keys, all of them present: the class objects those keys denote are
    hidden, and nothing else in the heap has changed. *)
Lemma hidden_lookup (h h' : Heap) (options : PerGameCommonOptions)
    (pre : list string) :
  dicts h' = dicts h ->
  (forall c,
     classes h' c
     = if decide (c ∈ hidden_classes (dicts h (type_hints options)) pre)
       then hidden_obj (classes h c)
       else classes h c) ->
  forall key,
    key ∈ pre ->
    dict_contains_all pre (dicts h (type_hints options)) = true ->
    visibility_of h' options key = Some (VVisibility hidden).
Proof.
  intros Hd Hcls key Hkey Hall.
  destruct (contains_all_elem _ _ _ Hall Hkey) as (c & Hget).
  unfold visibility_of, attribute_of. rewrite Hd, Hget.
  apply getattr_own. rewrite Hcls.
  rewrite decide_True by (eapply hidden_classes_elem; eassumption).
  apply hidden_obj_visibility.
Qed.

Lemma hidden_bases (h h' : Heap) (cs : list ClassRef) :
  (forall c,
     classes h' c
     = if decide (c ∈ cs) then hidden_obj (classes h c) else classes h c) ->
  forall c, cls_bases (classes h' c) = cls_bases (classes h c).
Proof. intros Hcls c. rewrite Hcls. case_decide; reflexivity. Qed.

Lemma hidden_other_attributes (h h' : Heap) (cs : list ClassRef) :
  (forall c,
     classes h' c
     = if decide (c ∈ cs) then hidden_obj (classes h c) else classes h c) ->
  forall c name,
    name <> "visibility" ->
    getattr (classes h') c name = getattr (classes h) c name.
Proof.
  intros Hcls c name Hname. unfold getattr.
  rewrite (hidden_bases _ _ _ Hcls). apply find_attr_ext.
  apply Forall_forall. intros c' _. rewrite Hcls.
  case_decide; [apply hidden_obj_other, Hname|reflexivity].
Qed.

Lemma hidden_unrelated_class (h h' : Heap) (cs : list ClassRef) :
  (forall c,
     classes h' c
     = if decide (c ∈ cs) then hidden_obj (classes h c) else classes h c) ->
  forall c name,
    c ∉ cs ->
    Forall (fun b => b ∉ cs) (cls_bases (classes h c)) ->
    getattr (classes h') c name = getattr (classes h) c name.
Proof.
  intros Hcls c name Hc Hbases. unfold getattr.
  rewrite (hidden_bases _ _ _ Hcls). apply find_attr_ext.
  apply Forall_cons. split.
  - rewrite Hcls, decide_False by exact Hc. reflexivity.
  - eapply Forall_impl; [exact Hbases|].
    intros b Hb. simpl. rewrite Hcls, decide_False by exact Hb. reflexivity.
Qed.

(** C2: when the final option set lacks one of the eleven target keys, the
    hook raises the key error of the first target key, in the order of the
    source, that is missing.  The target keys before it have all been
    processed: each now reads as hidden.  Nothing is rolled back, and no
    class object other than those of the processed keys has been touched;
    the mapping itself is never written. *)
Theorem after_options_defined_missing_key (h : Heap)
    (options : PerGameCommonOptions) :
  dict_contains_all hidden_keys (dicts h (type_hints options)) = false ->
  exists pre k post h',
    hidden_keys = pre ++ k :: post /\
    dict_contains_all pre (dicts h (type_hints options)) = true /\
    dict_get k (dicts h (type_hints options)) = None /\
    after_options_defined options h = (h', Raises (KeyError k)) /\
    dicts h' = dicts h /\
    (forall key, key ∈ pre ->
       visibility_of h' options key = Some (VVisibility hidden)) /\
    (forall c, c ∉ hidden_classes (dicts h (type_hints options)) pre ->
       classes h' c = classes h c).
Proof.
  intros Hmiss.
  destruct (first_missing _ _ Hmiss) as (pre & k & post & Hsplit & Hpre & Hk).
  destruct (hides_prefix options pre (k :: post) (mret tt) h Hpre)
    as (h' & Hrun & Hd & Hcls).
  exists pre, k, post, h'. repeat split; try assumption.
  - rewrite after_options_defined_unfold, Hsplit, Hrun.
    cbn [hides_then]. rewrite bind_run, hide_missing; [reflexivity|].
    rewrite Hd. exact Hk.
  - intros key Hkey. eapply hidden_lookup; eassumption.
  - intros c Hc. rewrite Hcls, decide_False by exact Hc. reflexivity.
Qed.

Lemma after_options_defined_missing_key_witness :
  dict_contains_all hidden_keys (dicts partial_heap (type_hints final_options))
  = false /\
  exists pre k post h',
    hidden_keys = pre ++ k :: post /\
    dict_contains_all pre (dicts partial_heap (type_hints final_options))
    = true /\
    dict_get k (dicts partial_heap (type_hints final_options)) = None /\
    after_options_defined final_options partial_heap
    = (h', Raises (KeyError k)) /\
    dicts h' = dicts partial_heap /\
    (forall key, key ∈ pre ->
       visibility_of h' final_options key = Some (VVisibility hidden)) /\
    (forall c,
       c ∉ hidden_classes (dicts partial_heap (type_hints final_options)) pre ->
       classes h' c = classes partial_heap c).
Proof.
  split; [reflexivity|].
  apply (after_options_defined_missing_key partial_heap final_options).
  reflexivity.
Defined.

(** On the option set without [shopsanity_currency]: the error names that
    key, the two keys before it are hidden, the keys after it are not. *)
Example after_options_defined_partial :
  let h' := fst (after_options_defined final_options partial_heap) in
  snd (after_options_defined final_options partial_heap)
  = Raises (KeyError "shopsanity_currency") /\
  visibility_of h' final_options "co_op" = Some (VVisibility hidden) /\
  visibility_of h' final_options "bux_shop" = Some (VVisibility hidden) /\
  visibility_of h' final_options "pure_soul" = Some (VVisibility visible) /\
  visibility_of h' final_options "chapter1" = Some (VVisibility visible).
Proof. vm_compute. repeat split. Qed.

(** C3, as the specification states it, fails when a key outside the
    eleven shares its class object with a target key: hiding [co_op] hides
    the class, and [unrelated_key], annotated with the same class, reads as
    hidden afterwards although it read as visible before. *)
Lemma hide_frame_as_stated_fails :
  ~ hide_frame_as_stated shared_heap final_options.
Proof.
  intros H. destruct (H eq_refl) as (h' & Hrun & _ & Hframe & _).
  assert (Hnot : "unrelated_key" ∉ hidden_keys).
  { apply (bool_decide_unpack _). vm_compute. exact I. }
  specialize (Hframe _ Hnot).
  injection Hrun as <-. vm_compute in Hframe. discriminate Hframe.
Qed.

(** C3, amended: on every heap whose final option set binds all eleven
    target keys, the hook returns; the mapping from keys to classes is
    unchanged; each target key reads as hidden; the store changes exactly
    at the class objects the target keys denote, where the class's own
    [visibility] is set; every attribute other than [visibility] reads the
    same on every key; and a key whose class object neither is nor derives
    from the class object of a target key reads the same visibility as
    before. *)
Theorem after_options_defined_hides_targets (h : Heap)
    (options : PerGameCommonOptions) :
  dict_contains_all hidden_keys (dicts h (type_hints options)) = true ->
  exists h',
    after_options_defined options h = (h', Returns tt) /\
    dicts h' = dicts h /\
    (forall key, key ∈ hidden_keys ->
       visibility_of h' options key = Some (VVisibility hidden)) /\
    (forall c,
       classes h' c
       = if decide (c ∈ hidden_classes (dicts h (type_hints options))
                          hidden_keys)
         then hidden_obj (classes h c)
         else classes h c) /\
    (forall key name, name <> "visibility" ->
       attribute_of h' options key name = attribute_of h options key name) /\
    (forall key c,
       dict_get key (dicts h (type_hints options)) = Some c ->
       c ∉ hidden_classes (dicts h (type_hints options)) hidden_keys ->
       Forall (fun b => b ∉ hidden_classes (dicts h (type_hints options))
                              hidden_keys)
              (cls_bases (classes h c)) ->
       visibility_of h' options key = visibility_of h options key).
Proof.
  intros Hall.
  destruct (hides_prefix options hidden_keys [] (mret tt) h Hall)
    as (h' & Hrun & Hd & Hcls).
  rewrite app_nil_r in Hrun.
  exists h'. split; [|split; [|split; [|split; [|split]]]].
  - rewrite after_options_defined_unfold. exact Hrun.
  - exact Hd.
  - intros key Hkey. eapply hidden_lookup; eassumption.
  - exact Hcls.
  - intros key name Hname. unfold attribute_of. rewrite Hd.
    destruct (dict_get key _); [|reflexivity].
    eapply hidden_other_attributes; eassumption.
  - intros key c Hget Hc Hbases. unfold visibility_of, attribute_of.
    rewrite Hd, Hget. eapply hidden_unrelated_class; eassumption.
Qed.

Lemma after_options_defined_hides_targets_witness :
  dict_contains_all hidden_keys (dicts scenario_heap (type_hints final_options))
  = true /\
  exists h',
    after_options_defined final_options scenario_heap = (h', Returns tt) /\
    dicts h' = dicts scenario_heap /\
    (forall key, key ∈ hidden_keys ->
       visibility_of h' final_options key = Some (VVisibility hidden)) /\
    (forall c,
       classes h' c
       = if decide
              (c ∈ hidden_classes
                     (dicts scenario_heap (type_hints final_options))
                     hidden_keys)
         then hidden_obj (classes scenario_heap c)
         else classes scenario_heap c) /\
    (forall key name, name <> "visibility" ->
       attribute_of h' final_options key name
       = attribute_of scenario_heap final_options key name) /\
    (forall key c,
       dict_get key (dicts scenario_heap (type_hints final_options)) = Some c ->
       c ∉ hidden_classes (dicts scenario_heap (type_hints final_options))
             hidden_keys ->
       Forall (fun b =>
                 b ∉ hidden_classes
                       (dicts scenario_heap (type_hints final_options))
                       hidden_keys)
              (cls_bases (classes scenario_heap c)) ->
       visibility_of h' final_options key
       = visibility_of scenario_heap final_options key).
Proof.
  split; [reflexivity|].
  apply (after_options_defined_hides_targets scenario_heap final_options).
  reflexivity.
Defined.

(** The scenario of section 8: eleven visible target keys and a visible
    [unrelated_key], each with a class of its own.  After the hook the
    eleven read as hidden and [unrelated_key] still reads as visible. *)
Example after_options_defined_scenario :
  let h' := fst (after_options_defined final_options scenario_heap) in
  snd (after_options_defined final_options scenario_heap) = Returns tt /\
  map (visibility_of scenario_heap final_options) hidden_keys
  = map (fun _ => Some (VVisibility visible)) hidden_keys /\
  map (visibility_of h' final_options) hidden_keys
  = map (fun _ => Some (VVisibility hidden)) hidden_keys /\
  visibility_of h' final_options "unrelated_key" = Some (VVisibility visible).
Proof. vm_compute. repeat split. Qed.

(** The same call on the registry in which [unrelated_key] shares the class
    of [co_op]. *)
Example after_options_defined_shared :
  let h' := fst (after_options_defined final_options shared_heap) in
  visibility_of shared_heap final_options "unrelated_key"
  = Some (VVisibility visible) /\
  visibility_of h' final_options "unrelated_key"
  = Some (VVisibility hidden).
Proof. vm_compute. split; reflexivity. Qed.

(** * Further properties of the registration hook *)

Section dict_order_facts.
Context {V : Type}.
Implicit Types (d : Dict V) (k : string) (v : V).

Lemma dict_set_fresh d k v :
  dict_get k d = None -> dict_set k v d = d ++ [(k, v)].
Proof.
  induction d as [|[k0 v0] d IH]; simpl; [reflexivity|].
  destruct (String.eqb k0 k); [discriminate|].
  intros H. rewrite (IH H). reflexivity.
Qed.

Lemma dict_get_snoc d k v k' :
  dict_get k' (d ++ [(k, v)])
  = match dict_get k' d with
    | Some x => Some x
    | None => if String.eqb k k' then Some v else None
    end.
Proof.
  induction d as [|[k0 v0] d IH]; simpl; [reflexivity|].
  destruct (String.eqb k0 k'); [reflexivity|exact IH].
Qed.

Lemma dict_get_elem d k v : dict_get k d = Some v -> (k, v) ∈ d.
Proof.
  induction d as [|[k0 v0] d IH]; simpl; [discriminate|].
  destruct (String.eqb k0 k) eqn:E.
  - apply String.eqb_eq in E. intros [= ->]. subst. left.
  - intros H. right. exact (IH H).
Qed.

(** A run of assignments to distinct keys, none of them in the dictionary,
    appends the run as it stands. *)
Lemma dict_set_all_fresh (kvs : list (string * V)) d :
  NoDup (map fst kvs) ->
  Forall (fun kv => dict_get (fst kv) d = None) kvs ->
  dict_set_all kvs d = d ++ kvs.
Proof.
  revert d. induction kvs as [|[k v] kvs IH]; intros d Hnd Hfresh.
  - symmetry. apply app_nil_r.
  - simpl in Hnd. apply NoDup_cons in Hnd as [Hk Hnd].
    apply Forall_cons in Hfresh as [Hkd Hfresh]. simpl in Hkd.
    change (dict_set_all ((k, v) :: kvs) d)
      with (dict_set_all kvs (dict_set k v d)).
    rewrite (dict_set_fresh _ _ _ Hkd), IH.
    + rewrite <- app_assoc. reflexivity.
    + exact Hnd.
    + apply Forall_forall. intros [k' v'] Hin. simpl.
      rewrite dict_get_snoc.
      rewrite Forall_forall in Hfresh.
      pose proof (Hfresh _ Hin) as Hk'. simpl in Hk'. rewrite Hk'.
      destruct (String.eqb k k') eqn:E; [|reflexivity].
      apply String.eqb_eq in E. subst k'. exfalso. apply Hk.
      apply list_elem_of_fmap. exists (k, v'). split; [reflexivity|exact Hin].
Qed.

(** After a run of assignments to distinct keys, the keys that were there
    stand where they stood, and the new keys follow in the order of the
    run. *)
Lemma dict_keys_set_all (kvs : list (string * V)) d :
  NoDup (map fst kvs) ->
  dict_keys (dict_set_all kvs d)
  = dict_keys d
    ++ List.filter (fun k => negb (dict_contains k d)) (map fst kvs).
Proof.
  revert d. induction kvs as [|[k v] kvs IH]; intros d Hnd.
  - simpl. symmetry. apply app_nil_r.
  - simpl in Hnd. apply NoDup_cons in Hnd as [Hk Hnd].
    change (dict_set_all ((k, v) :: kvs) d)
      with (dict_set_all kvs (dict_set k v d)).
    rewrite (IH _ Hnd), dict_keys_set.
    assert (Hext :
      List.filter (fun k' => negb (dict_contains k' (dict_set k v d)))
                  (map fst kvs)
      = List.filter (fun k' => negb (dict_contains k' d)) (map fst kvs)).
    { apply List.filter_ext_in. intros k' Hin.
      rewrite dict_contains_set.
      destruct (String.eqb k k') eqn:E; [|reflexivity].
      apply String.eqb_eq in E. subst k'. exfalso. apply Hk.
      apply list_elem_of_In. exact Hin. }
    rewrite Hext. simpl.
    destruct (dict_contains k d); simpl; [reflexivity|].
    rewrite <- app_assoc. reflexivity.
Qed.

End dict_order_facts.

Lemma registered_fst : map fst registered_classes = dict_keys registrations.
Proof. reflexivity. Qed.

(** X1: the hook keeps the order of the registry.  The keys the registry
    had stay where they were, whether rebound or not, and the keys among
    the twelve that it lacked are appended in the order of the source. *)
Theorem before_options_defined_key_order (h : Heap) (options : Loc) :
  exists h',
    before_options_defined options h = (h', Returns options) /\
    dict_keys (dicts h' options)
    = dict_keys (dicts h options)
      ++ List.filter (fun k => negb (dict_contains k (dicts h options)))
           (dict_keys registrations).
Proof.
  destruct (before_options_defined_run h options) as (h' & Hrun & _ & Hd & _).
  exists h'. split; [exact Hrun|].
  rewrite Hd, (dict_keys_set_all _ _ registrations_NoDup), registered_fst.
  reflexivity.
Qed.

(** X2: on an empty registry, which is what the host passes, the registry
    after the hook is exactly the twelve bindings of the source, in the
    order of the source. *)
Theorem before_options_defined_on_empty (h : Heap) (options : Loc) :
  dicts h options = dict_empty ->
  exists h',
    before_options_defined options h = (h', Returns options) /\
    dicts h' options = registered_classes.
Proof.
  intros Hempty.
  destruct (before_options_defined_run h options) as (h' & Hrun & _ & Hd & _).
  exists h'. split; [exact Hrun|].
  rewrite Hd, Hempty.
  apply (dict_set_all_fresh _ dict_empty registrations_NoDup).
  apply Forall_forall. intros kv _. reflexivity.
Qed.

Lemma before_options_defined_on_empty_witness :
  dicts fresh_heap 0%N = dict_empty /\
  exists h',
    before_options_defined 0%N fresh_heap = (h', Returns 0%N) /\
    dicts h' 0%N = registered_classes.
Proof.
  split; [reflexivity|].
  apply (before_options_defined_on_empty fresh_heap 0%N). reflexivity.
Defined.

Lemma registrations_injective (k1 k2 : string) (c : OptionClass) :
  dict_get k1 registrations = Some c ->
  dict_get k2 registrations = Some c ->
  k1 = k2.
Proof.
  intros H1 H2. apply dict_get_elem in H1, H2.
  unfold registrations in H1, H2.
  repeat (apply elem_of_cons in H1 as [H1|H1];
          [injection H1 as -> ->;
           repeat (apply elem_of_cons in H2 as [H2|H2];
                   [injection H2 as ->; try reflexivity; discriminate|]);
           inversion H2|]).
  inversion H1.
Qed.

(** X3: no two keys the hook writes share a class.  After the hook, two
    different keys among the twelve are bound to two different class
    objects, whatever the registry held before. *)
Theorem before_options_defined_distinct_classes (h : Heap) (options : Loc)
    (k1 k2 : string) (c1 c2 : OptionClass) :
  dict_get k1 registrations = Some c1 ->
  dict_get k2 registrations = Some c2 ->
  k1 <> k2 ->
  exists h',
    before_options_defined options h = (h', Returns options) /\
    dict_get k1 (dicts h' options) = Some (Own c1) /\
    dict_get k2 (dicts h' options) = Some (Own c2) /\
    Own c1 <> Own c2.
Proof.
  intros H1 H2 Hne.
  destruct (before_options_defined_run h options) as (h' & Hrun & _ & Hd & _).
  exists h'. rewrite Hd, !registered_lookup, H1, H2. repeat split.
  - exact Hrun.
  - intros [= ->]. apply Hne. eapply registrations_injective; eassumption.
Qed.

Lemma before_options_defined_distinct_classes_witness :
  dict_get "cap" registrations = Some CAP /\
  dict_get "soul_type" registrations = Some SoulType /\
  "cap" <> "soul_type" /\
  exists h',
    before_options_defined 0%N busy_heap = (h', Returns 0%N) /\
    dict_get "cap" (dicts h' 0%N) = Some (Own CAP) /\
    dict_get "soul_type" (dicts h' 0%N) = Some (Own SoulType) /\
    Own CAP <> Own SoulType.
Proof.
  split; [reflexivity|]. split; [reflexivity|]. split; [discriminate|].
  apply (before_options_defined_distinct_classes busy_heap 0%N
           "cap" "soul_type" CAP SoulType);
    [reflexivity|reflexivity|discriminate].
Defined.

(** * Further properties of the visibility hook *)

Lemma processed_all (th : Dict ClassRef) (ks : list string) :
  dict_contains_all ks th = true ->
  processed_keys th ks = ks /\ first_missing_key th ks = None.
Proof.
  induction ks as [|k ks IH]; simpl; [auto|].
  intros Hall. apply andb_prop in Hall as [Hk Hks].
  destruct (IH Hks) as [Hp Hf].
  unfold first_missing_key in *. simpl. rewrite Hk, Hp. simpl. auto.
Qed.

Lemma processed_split (th : Dict ClassRef) (pre : list string) (k : string)
    (post : list string) :
  dict_contains_all pre th = true ->
  dict_get k th = None ->
  processed_keys th (pre ++ k :: post) = pre /\
  first_missing_key th (pre ++ k :: post) = Some k.
Proof.
  intros Hpre Hk. induction pre as [|k0 pre IH]; simpl.
  - unfold first_missing_key, dict_contains. simpl.
    unfold dict_contains. rewrite Hk. auto.
  - simpl in Hpre. apply andb_prop in Hpre as [Hk0 Hpre].
    destruct (IH Hpre) as [Hp Hf].
    unfold first_missing_key in *. simpl. rewrite Hk0, Hp. simpl. auto.
Qed.

Lemma first_missing_key_Some (th : Dict ClassRef) (ks : list string)
    (k : string) :
  first_missing_key th ks = Some k -> k ∈ ks /\ dict_get k th = None.
Proof.
  unfold first_missing_key. intros H. apply List.find_some in H as [Hin Hk].
  split; [apply list_elem_of_In, Hin|].
  unfold dict_contains in Hk. destruct (dict_get k th); [discriminate|reflexivity].
Qed.

Lemma first_missing_key_ext (th th' : Dict ClassRef) (ks : list string) :
  Forall (fun k => dict_get k th' = dict_get k th) ks ->
  first_missing_key th' ks = first_missing_key th ks.
Proof.
  unfold first_missing_key.
  induction 1 as [|k ks Hk _ IH]; simpl; [reflexivity|].
  unfold dict_contains at 1 3. rewrite Hk, IH. reflexivity.
Qed.

(** The hook as a function of the mapping: its outcome is decided by the
    first target key the mapping lacks, and its effect is to hide the class
    objects of the target keys before that one. *)
Lemma after_options_defined_run (h : Heap) (options : PerGameCommonOptions) :
  exists h',
    after_options_defined options h
    = (h', match first_missing_key (dicts h (type_hints options)) hidden_keys
           with
           | None => Returns tt
           | Some k => Raises (KeyError k)
           end) /\
    dicts h' = dicts h /\
    forall c,
      classes h' c
      = if decide (c ∈ hidden_classes (dicts h (type_hints options))
                         (processed_keys (dicts h (type_hints options))
                                         hidden_keys))
        then hidden_obj (classes h c)
        else classes h c.
Proof.
  rewrite after_options_defined_unfold.
  destruct (dict_contains_all hidden_keys (dicts h (type_hints options)))
    eqn:Hall.
  - destruct (hides_prefix options hidden_keys [] (mret tt) h Hall)
      as (h' & Hrun & Hd & Hcls).
    rewrite app_nil_r in Hrun.
    destruct (processed_all _ _ Hall) as [-> ->].
    exists h'. auto.
  - destruct (first_missing _ _ Hall) as (pre & k & post & Hsplit & Hpre & Hk).
    destruct (hides_prefix options pre (k :: post) (mret tt) h Hpre)
      as (h' & Hrun & Hd & Hcls).
    destruct (processed_split _ _ _ post Hpre Hk) as [Hp Hf].
    rewrite Hsplit, Hp, Hf. exists h'. split; [|auto].
    rewrite Hrun. cbn [hides_then].
    rewrite bind_run, hide_missing; [reflexivity|].
    rewrite Hd. exact Hk.
Qed.

(** X4: the hook returns exactly when the mapping binds all eleven target
    keys; otherwise it raises, and the only error it can raise is the key
    error of a target key that the mapping does not bind. *)
Theorem after_options_defined_outcome (h : Heap)
    (options : PerGameCommonOptions) :
  (dict_contains_all hidden_keys (dicts h (type_hints options)) = true /\
   snd (after_options_defined options h) = Returns tt)
  \/
  (dict_contains_all hidden_keys (dicts h (type_hints options)) = false /\
   exists k,
     k ∈ hidden_keys /\
     dict_get k (dicts h (type_hints options)) = None /\
     snd (after_options_defined options h) = Raises (KeyError k)).
Proof.
  destruct (after_options_defined_run h options) as (h' & Hrun & _).
  rewrite Hrun. cbn [snd].
  destruct (dict_contains_all hidden_keys (dicts h (type_hints options)))
    eqn:Hall.
  - left. destruct (processed_all _ _ Hall) as [_ ->]. auto.
  - right. split; [reflexivity|].
    destruct (first_missing _ _ Hall) as (pre & k & post & Hsplit & Hpre & Hk).
    destruct (processed_split _ _ _ post Hpre Hk) as [_ Hf].
    rewrite Hsplit, Hf. exists k. repeat split; [|exact Hk].
    apply elem_of_app. right. left.
Qed.

(** X5: whether it returns or raises, the hook never writes a dictionary,
    and each class object is afterwards either as it was or as it was with
    its own [visibility] set to hidden: no base, no annotation and no other
    attribute of any class is ever changed. *)
Theorem after_options_defined_touches_visibility_only (h : Heap)
    (options : PerGameCommonOptions) (c : ClassRef) :
  dicts (fst (after_options_defined options h)) = dicts h /\
  (classes (fst (after_options_defined options h)) c = classes h c \/
   classes (fst (after_options_defined options h)) c
   = mkClass (cls_bases (classes h c))
             (dict_set "visibility" (VVisibility hidden)
                       (cls_dict (classes h c)))
             (cls_annotations (classes h c))).
Proof.
  destruct (after_options_defined_run h options) as (h' & Hrun & Hd & Hcls).
  rewrite Hrun. simpl. split; [exact Hd|].
  rewrite Hcls. case_decide; [right|left]; reflexivity.
Qed.

Lemma find_attr_hidden_mono (h h' : Heap) (cs mro : list ClassRef) :
  (forall c,
     classes h' c
     = if decide (c ∈ cs) then hidden_obj (classes h c) else classes h c) ->
  find_attr (classes h) "visibility" mro = Some (VVisibility hidden) ->
  find_attr (classes h') "visibility" mro = Some (VVisibility hidden).
Proof.
  intros Hcls. induction mro as [|c mro IH]; simpl; [discriminate|].
  rewrite Hcls. case_decide.
  - intros _. rewrite hidden_obj_visibility. reflexivity.
  - destruct (dict_get "visibility" (cls_dict (classes h c))); auto.
Qed.

(** X6: the hook never makes a hidden option visible.  A key that reads as
    hidden before the call, through its own class or a base, reads as
    hidden after it, whether the call returns or raises. *)
Theorem after_options_defined_never_unhides (h : Heap)
    (options : PerGameCommonOptions) (key : string) :
  visibility_of h options key = Some (VVisibility hidden) ->
  visibility_of (fst (after_options_defined options h)) options key
  = Some (VVisibility hidden).
Proof.
  destruct (after_options_defined_run h options) as (h' & Hrun & Hd & Hcls).
  rewrite Hrun. simpl. unfold visibility_of, attribute_of. rewrite Hd.
  destruct (dict_get key _) as [c|]; [|discriminate].
  unfold getattr. rewrite (hidden_bases _ _ _ Hcls).
  eapply find_attr_hidden_mono. exact Hcls.
Qed.

Lemma after_options_defined_never_unhides_witness :
  visibility_of rerun_heap final_options "co_op" = Some (VVisibility hidden) /\
  visibility_of (fst (after_options_defined final_options rerun_heap))
    final_options "co_op"
  = Some (VVisibility hidden).
Proof.
  split; [reflexivity|].
  apply (after_options_defined_never_unhides rerun_heap final_options "co_op").
  reflexivity.
Defined.

(** X7: calling the hook twice in a row is calling it once: the outcome is
    the same (the same return, or the same key error), and so are all the
    dictionaries and all the class objects. *)
Theorem after_options_defined_idempotent (h : Heap)
    (options : PerGameCommonOptions) :
  exists h1 h2 r,
    after_options_defined options h = (h1, r) /\
    (after_options_defined options;; after_options_defined options) h
    = (h2, r) /\
    dicts h2 = dicts h1 /\
    forall c, classes h2 c = classes h1 c.
Proof.
  destruct (after_options_defined_run h options) as (h1 & Hrun1 & Hd1 & Hcls1).
  destruct (after_options_defined_run h1 options) as (h2 & Hrun2 & Hd2 & Hcls2).
  rewrite Hd1 in Hrun2, Hcls2.
  destruct (first_missing_key (dicts h (type_hints options)) hidden_keys)
    as [k|] eqn:Hf.
  - exists h1, h1, (Raises (KeyError k)). repeat split; [exact Hrun1|].
    rewrite bind_run, Hrun1. reflexivity.
  - exists h1, h2, (Returns tt). split; [exact Hrun1|]. split; [|split].
    + rewrite bind_run, Hrun1. exact Hrun2.
    + exact Hd2.
    + intros c. rewrite Hcls2, Hcls1.
      case_decide; [apply hidden_obj_idem|reflexivity].
Qed.

Lemma hidden_keys_not_registered :
  Forall (fun k => dict_get k registrations = None) hidden_keys.
Proof. repeat constructor. Qed.

(** X8: registration supplies none of the keys the visibility hook looks
    up.  Each of the eleven target keys is bound after registration to
    what it was bound to before, so the visibility hook run on the registry
    right after registration returns, or raises the key error, exactly as
    it would have on the registry before registration. *)
Theorem registration_then_hiding (h : Heap) (options : Loc) :
  Forall (fun k =>
            dict_get k (dicts (fst (before_options_defined options h)) options)
            = dict_get k (dicts h options)) hidden_keys /\
  snd ((opts ← before_options_defined options;
        after_options_defined (mkOptions opts)) h)
  = snd (after_options_defined (mkOptions options) h).
Proof.
  destruct (before_options_defined_run h options) as (h' & Hrun & _ & Hd & _).
  assert (Hsame :
    Forall (fun k => dict_get k (dicts h' options) = dict_get k (dicts h options))
           hidden_keys).
  { eapply Forall_impl; [apply hidden_keys_not_registered|].
    intros k Hk. cbv beta in Hk |- *.
    rewrite Hd, registered_lookup, Hk. reflexivity. }
  rewrite bind_run, Hrun. cbn [fst]. split; [exact Hsame|].
  destruct (after_options_defined_run h' (mkOptions options)) as (h2 & -> & _).
  destruct (after_options_defined_run h (mkOptions options)) as (h3 & -> & _).
  cbn [snd type_hints]. rewrite (first_missing_key_ext _ _ _ Hsame).
  reflexivity.
Qed.

(** On the empty registry the host starts from, registration followed by
    the visibility hook on the same mapping stops at [co_op]. *)
Example registration_then_hiding_fresh :
  snd ((opts ← before_options_defined 0%N;
        after_options_defined (mkOptions opts)) fresh_heap)
  = Raises (KeyError "co_op").
Proof. reflexivity. Qed.

(** * Further properties of the declarations *)

(** X9: only [TotalCharactersToWinWith] binds a default.  Each of the
    other twelve classes leaves [default] unbound, so its default is the
    one its host base provides; with the host's bases as the spec
    describes them, that is off for the classes derived from [Toggle], on
    for those derived from [DefaultOnToggle], and code 0 for the two
    choices. *)
Theorem defaults_come_from_bases (st : Store) (c : OptionClass) :
  match c with
  | TotalCharactersToWinWith =>
      dict_get "default" (cls_dict (load_module st (Own c))) = Some (VInt 50)
  | _ =>
      dict_get "default" (cls_dict (load_module st (Own c))) = None /\
      getattr (load_module st) (Own c) "default"
      = getattr (load_module st) (Host (decl_base (class_decl c))) "default" /\
      getattr module_store (Own c) "default"
      = Some (match decl_base (class_decl c) with
              | Toggle => VBool false
              | DefaultOnToggle => VBool true
              | Choice | Range => VInt 0
              end)
  end.
Proof. destruct c; repeat split; reflexivity. Qed.

(** X10: [SoulType] derives from [Choice]; its enumeration is exactly
    [pure = 0], [dark = 1]; it binds no default of its own, so its default
    is the one the host's [Choice] provides.  The ten toggles and the range
    declare no enumeration at all. *)
Theorem soul_type_choice_declared (st : Store) (c : OptionClass) :
  decl_base (class_decl SoulType) = Choice /\
  choices_of (cls_dict (load_module st (Own SoulType)))
  = [("pure", 0); ("dark", 1)] /\
  dict_get "default" (cls_dict (load_module st (Own SoulType))) = None /\
  getattr (load_module st) (Own SoulType) "default"
  = getattr (load_module st) (Host Choice) "default" /\
  (choices_of (cls_dict (load_module st (Own c))) = []
   \/ decl_base (class_decl c) = Choice).
Proof.
  repeat split; try reflexivity.
  destruct c; (left; reflexivity) || (right; reflexivity).
Qed.
